(** * mps.py: master production schedule and material requirements planning

    A shallow embedding of the planning functions of [mps.py]
    ([calcular_stock_seguridad_porcentaje], [calcular_mps_nivelado],
    [calcular_mps_perseguidor_ss_variable], [calcular_mrp]) and the
    properties of their results.

    Numbers.  The planners mix Python [int] and [float] values.  Both are
    embedded as exact rationals ([Qc], canonical fractions with Leibniz
    equality): every integer and every decimal input is represented exactly
    and the arithmetic is the ideal one, without binary rounding.

    Exceptions.  A function that can [raise] returns a [resultado]: the value,
    or the exception raised.  List subscripts out of range raise
    [IndexError], as in Python.

    Tables.  A pandas [DataFrame] whose index is a fixed set of row labels and
    whose columns are the periods [1..N] is a family of rows, one list of [N]
    numbers per label; [.loc[fila, p] = v] overwrites position [p - 1] of that
    row. *)

From Stdlib Require Import QArith Qcanon Qround ZArith String Lia Lqa.
From stdpp Require Import base list numbers.

Open Scope Qc_scope.

(** ** Python values and builtins *)

(** An integer as a number. *)
Definition z2q (z : Z) : Qc := Q2Qc (inject_Z z).

Inductive excepcion : Type :=
| ValueError (msg : string)
| IndexError.

Inductive resultado (A : Type) : Type :=
| Ok (a : A)
| Raise (e : excepcion).
Arguments Ok {A} a.
Arguments Raise {A} e.

Definition bind {A B : Type} (m : resultado A) (k : A -> resultado B)
  : resultado B :=
  match m with
  | Ok a => k a
  | Raise e => Raise e
  end.

Definition es_ok {A : Type} (m : resultado A) : Prop :=
  match m with Ok _ => True | Raise _ => False end.

Definition es_value_error {A : Type} (m : resultado A) : Prop :=
  match m with Raise (ValueError _) => True | _ => False end.

(** [max(a, b)]: the first argument unless the second is strictly larger. *)
Definition py_max (a b : Qc) : Qc := if decide (a < b) then b else a.

(** [math.ceil(x)], an [int]. *)
Definition py_ceil (x : Qc) : Qc := z2q (Qceiling x).

(** [sum(l)], accumulated from [0] left to right. *)
Definition py_sum (l : list Qc) : Qc := fold_left Qcplus l 0.

(** [l[i]] for [i >= 0]. *)
Definition py_index (l : list Qc) (i : nat) : resultado Qc :=
  match l !! i with
  | Some x => Ok x
  | None => Raise IndexError
  end.

(** [l[i] = v] on a Python list, for [i >= 0]. *)
Definition py_setitem (l : list Qc) (i : nat) (v : Qc) : resultado (list Qc) :=
  if decide (i < length l)%nat then Ok (<[i := v]> l) else Raise IndexError.

(** [for x in xs: s = body x s], stopping at the first exception. *)
Fixpoint for_each {S : Type} (body : nat -> S -> resultado S)
    (xs : list nat) (s : S) : resultado S :=
  match xs with
  | [] => Ok s
  | x :: xs' => bind (body x s) (for_each body xs')
  end.

(** [list(range(1, n + 1))]. *)
Definition periodos_de (n : nat) : list nat := seq 1 n.


#[global] Instance resultado_bind : MBind resultado :=
  fun A B k m => bind m k.
#[global] Instance resultado_ret : MRet resultado := fun A a => Ok a.

(** ** DataFrame over the periods *)

Section DataFrame.
Context {R : Type} `{EqDecision R}.

Definition DataFrame : Type := R -> list Qc.

(** [pd.DataFrame(index=..., columns=periodos).fillna(0.0)] *)
Definition df_nuevo (n : nat) : DataFrame := fun _ => replicate n 0.

(** [df.loc[fila, p] = v] for a period [p] among the columns [1..n]. *)
Definition df_set (df : DataFrame) (fila : R) (p : nat) (v : Qc) : DataFrame :=
  fun r => if decide (r = fila) then <[pred p := v]> (df r) else df r.

(** [df.loc[fila] = serie], the series being indexed by the same periods. *)
Definition df_set_fila (df : DataFrame) (fila : R) (serie : list Qc)
  : DataFrame :=
  fun r => if decide (r = fila) then serie else df r.

(** [df.loc[fila, p]], a lookup on the 1-based period [p]. *)
Definition df_loc (df : DataFrame) (fila : R) (p : nat) : option Qc :=
  match p with
  | O => None
  | S i => df fila !! i
  end.
End DataFrame.
Arguments DataFrame R : clear implicits.

(** ** Safety stock (lines 261-279) *)

Inductive stock_seguridad : Type :=
| SSPorPeriodo (l : list Qc)
| SSEscalar (x : Qc).

Definition calcular_stock_seguridad_porcentaje
    (demanda : list Qc) (porcentaje : Qc) (tipo : string)
  : resultado stock_seguridad :=
  if negb (bool_decide (0 ≤ porcentaje) && bool_decide (porcentaje ≤ 1)) then
    Raise (ValueError "El porcentaje debe estar entre 0 y 1.")
  else if String.eqb tipo "periodo" then
    Ok (SSPorPeriodo (map (fun d => py_ceil (d * porcentaje)) demanda))
  else if String.eqb tipo "final" then
    match list.last demanda with
    | None => Ok (SSEscalar 0)
    | Some d => Ok (SSEscalar (py_ceil (d * porcentaje)))
    end
  else if String.eqb tipo "promedio" then
    match demanda with
    | [] => Ok (SSEscalar 0)
    | _ =>
        let promedio := py_sum demanda / z2q (Z.of_nat (length demanda)) in
        Ok (SSEscalar (py_ceil (promedio * porcentaje)))
    end
  else
    Raise (ValueError
      "Tipo de cálculo de SS no reconocido ('periodo', 'final', 'promedio')").

(** ** Level strategy (lines 16-79) *)

(** Row labels of the table of [calcular_mps_nivelado]: 'Inventario Inicial',
    'Producción Bruta Requerida', 'Inventario Disponible', 'Demanda',
    'Inventario Final'. *)
Inductive fila_nivelado : Type :=
| NInventarioInicial
| NProduccionBrutaRequerida
| NInventarioDisponible
| NDemanda
| NInventarioFinal.

#[global] Instance fila_nivelado_eq_dec : EqDecision fila_nivelado.
Proof. solve_decision. Defined.

(** Lines 37-39. *)
Definition requerimiento_neto_total
    (demanda : list Qc) (inv_inicial stock_seguridad_final : Qc) : Qc :=
  let demanda_total := py_sum demanda in
  let requerimiento_neto_total :=
    demanda_total + stock_seguridad_final - inv_inicial in
  py_max 0 requerimiento_neto_total.

(** Line 43. *)
Definition produccion_necesaria_por_periodo
    (demanda : list Qc) (inv_inicial stock_seguridad_final : Qc)
    (num_periodos : Z) : Qc :=
  requerimiento_neto_total demanda inv_inicial stock_seguridad_final
  / z2q num_periodos.

(** Line 48. *)
Definition produccion_bruta_por_periodo
    (demanda : list Qc) (inv_inicial stock_seguridad_final scrap_rate : Qc)
    (num_periodos : Z) : Qc :=
  py_ceil (produccion_necesaria_por_periodo demanda inv_inicial
             stock_seguridad_final num_periodos
           / (1 - scrap_rate)).

(** Body of the loop of lines 64-77; the state is the table and
    [inv_final_anterior]. *)
Definition nivelado_periodo (demanda : list Qc) (produccion_bruta : Qc)
    (p : nat) (st : DataFrame fila_nivelado * Qc)
  : resultado (DataFrame fila_nivelado * Qc) :=
  let '(mps_df, inv_final_anterior) := st in
  let idx_demanda := (p - 1)%nat in
  let inv_inicial_periodo := inv_final_anterior in
  let prod_planificada := produccion_bruta in
  let inv_disponible := inv_inicial_periodo + prod_planificada in
  demanda_actual ← py_index demanda idx_demanda;
  let inv_final := inv_disponible - demanda_actual in
  let mps_df := df_set mps_df NInventarioInicial p inv_inicial_periodo in
  let mps_df := df_set mps_df NProduccionBrutaRequerida p prod_planificada in
  let mps_df := df_set mps_df NInventarioDisponible p inv_disponible in
  let mps_df := df_set mps_df NDemanda p demanda_actual in
  let mps_df := df_set mps_df NInventarioFinal p inv_final in
  Ok (mps_df, inv_final).

Definition calcular_mps_nivelado
    (demanda : list Qc) (inv_inicial stock_seguridad_final scrap_rate : Qc)
    (num_periodos : Z) : resultado (DataFrame fila_nivelado) :=
  if decide (num_periodos ≤ 0)%Z then
    Raise (ValueError "El número de períodos debe ser positivo.")
  else if decide (1 - scrap_rate ≤ 0) then
    Raise (ValueError "La tasa de scrap no puede ser 100% o más.")
  else
    let produccion_bruta :=
      produccion_bruta_por_periodo demanda inv_inicial stock_seguridad_final
        scrap_rate num_periodos in
    let n := Z.to_nat num_periodos in
    let periodos := periodos_de n in
    let mps_df := df_nuevo n in
    st ← for_each (nivelado_periodo demanda produccion_bruta) periodos
           (mps_df, inv_inicial);
    Ok (fst st).

(** ** Chase strategy with a safety stock per period (lines 84-150) *)

(** Row labels of the table of [calcular_mps_perseguidor_ss_variable]:
    'Inventario Inicial', 'Stock Seguridad Periodo',
    'Producción Bruta Requerida', 'Inventario Disponible', 'Demanda',
    'Inventario Final'. *)
Inductive fila_perseguidor : Type :=
| PInventarioInicial
| PStockSeguridadPeriodo
| PProduccionBrutaRequerida
| PInventarioDisponible
| PDemanda
| PInventarioFinal.

#[global] Instance fila_perseguidor_eq_dec : EqDecision fila_perseguidor.
Proof. solve_decision. Defined.

(** Body of the loop of lines 122-147; the state is the table,
    [inv_final_anterior] and the list [producciones]. *)
Definition perseguidor_periodo
    (demanda stocks_seguridad_periodo : list Qc) (scrap_rate : Qc)
    (p : nat) (st : DataFrame fila_perseguidor * Qc * list Qc)
  : resultado (DataFrame fila_perseguidor * Qc * list Qc) :=
  let '(mps_df, inv_final_anterior, producciones) := st in
  let idx := (p - 1)%nat in
  let inv_inicial_periodo := inv_final_anterior in
  demanda_actual ← py_index demanda idx;
  ss_actual ← py_index stocks_seguridad_periodo idx;
  let necesidad_total_periodo := demanda_actual + ss_actual in
  let produccion_necesaria_neta :=
    necesidad_total_periodo - inv_inicial_periodo in
  let produccion_necesaria_neta := py_max 0 produccion_necesaria_neta in
  if decide (1 - scrap_rate ≤ 0) then
    Raise (ValueError "La tasa de scrap no puede ser 100% o más.")
  else
    let produccion_bruta_requerida :=
      py_ceil (produccion_necesaria_neta / (1 - scrap_rate)) in
    let producciones := producciones ++ [produccion_bruta_requerida] in
    let inv_disponible := inv_inicial_periodo + produccion_bruta_requerida in
    let inv_final := inv_disponible - demanda_actual in
    let mps_df := df_set mps_df PInventarioInicial p inv_inicial_periodo in
    let mps_df := df_set mps_df PStockSeguridadPeriodo p ss_actual in
    let mps_df :=
      df_set mps_df PProduccionBrutaRequerida p produccion_bruta_requerida in
    let mps_df := df_set mps_df PInventarioDisponible p inv_disponible in
    let mps_df := df_set mps_df PDemanda p demanda_actual in
    let mps_df := df_set mps_df PInventarioFinal p inv_final in
    Ok (mps_df, inv_final, producciones).

Definition calcular_mps_perseguidor_ss_variable
    (demanda : list Qc) (inv_inicial : Qc)
    (stocks_seguridad_periodo : list Qc) (scrap_rate : Qc)
  : resultado (DataFrame fila_perseguidor) :=
  let num_periodos := length demanda in
  if decide (length stocks_seguridad_periodo ≠ num_periodos) then
    Raise (ValueError
      "La longitud de stocks_seguridad_periodo debe coincidir con la demanda.")
  else
    let periodos := periodos_de num_periodos in
    let mps_df := df_nuevo num_periodos in
    st ← for_each
           (perseguidor_periodo demanda stocks_seguridad_periodo scrap_rate)
           periodos (mps_df, inv_inicial, []);
    Ok (fst (fst st)).

(** ** Material requirements planning (lines 155-254) *)

(** Row labels of the MRP table: 'Requerimientos Brutos',
    'Recepciones Programadas', 'Inventario Proyectado Disponible',
    'Requerimientos Netos', 'Recepción de Pedidos Planificados',
    'Lanzamiento Planificado de Pedidos'. *)
Inductive fila_mrp : Type :=
| RequerimientosBrutos
| RecepcionesProgramadas
| InventarioProyectadoDisponible
| RequerimientosNetos
| RecepcionPedidosPlanificados
| LanzamientoPlanificadoPedidos.

#[global] Instance fila_mrp_eq_dec : EqDecision fila_mrp.
Proof. solve_decision. Defined.

(** Lines 189-192: when the lengths differ, the scheduled receipts become
    [(recepciones_programadas + [0.0] * num_periodos)[:num_periodos]]. *)
Definition ajustar_recepciones (recepciones_programadas : list Qc)
    (num_periodos : nat) : list Qc :=
  if decide (length recepciones_programadas ≠ num_periodos) then
    take num_periodos (recepciones_programadas ++ replicate num_periodos 0)
  else recepciones_programadas.

(** Line 220. *)
Definition pab_antes_recepcion_planif (pab_inicio_periodo rp_t : Qc) : Qc :=
  pab_inicio_periodo + rp_t.

(** Lines 222-223. *)
Definition requerimiento_neto (rb_t stock_seguridad pab_antes : Qc) : Qc :=
  let rn_t := rb_t + stock_seguridad - pab_antes in
  py_max 0 rn_t.

(** Lines 226-234: the planned order receipt for a net requirement. *)
Definition recepcion_planificada (politica_lote : string) (lote_minimo : Qc)
    (rn_t : Qc) : resultado Qc :=
  if decide (0 < rn_t) then
    if String.eqb politica_lote "LFL" then
      Ok (py_max rn_t lote_minimo)
    else if String.eqb politica_lote "FOQ" then
      if decide (lote_minimo ≤ 0) then
        Raise (ValueError "Lote Fijo (FOQ) debe ser mayor que 0")
      else Ok (py_ceil (rn_t / lote_minimo) * lote_minimo)
    else Ok (py_max rn_t lote_minimo)
  else Ok 0.

(** Lines 237-244: [lanzamientos_planificados] is a series labelled by the
    periods [1..N]; label [r] is position [r - 1] of the list.  A release
    period below [1] is skipped, one above [N] only prints a warning. *)
Definition acumular_lanzamiento (lanzamientos_planificados : list Qc)
    (periodo_lanzamiento : Z) (rpp_t : Qc) : list Qc :=
  if decide (1 ≤ periodo_lanzamiento)%Z then
    if decide (periodo_lanzamiento ≤ Z.of_nat (length lanzamientos_planificados))%Z
    then alter (fun x => x + rpp_t) (Z.to_nat periodo_lanzamiento - 1)%nat
           lanzamientos_planificados
    else lanzamientos_planificados
  else lanzamientos_planificados.

(** What the loop of [calcular_mrp] carries from one period to the next. *)
Record estado_mrp : Type := {
  pab : list Qc;
  mrp_df : DataFrame fila_mrp;
  lanzamientos_planificados : list Qc
}.

(** Body of the loop of lines 210-248. *)
Definition mrp_periodo
    (requerimientos_brutos recepciones_programadas : list Qc)
    (stock_seguridad : Qc) (lead_time : Z) (lote_minimo : Qc)
    (politica_lote : string) (t : nat) (st : estado_mrp)
  : resultado estado_mrp :=
  let idx := (t - 1)%nat in
  pab_inicio_periodo ← py_index (pab st) idx;
  rb_t ← py_index requerimientos_brutos idx;
  rp_t ← py_index recepciones_programadas idx;
  let df := df_set (mrp_df st) RequerimientosBrutos t rb_t in
  let df := df_set df RecepcionesProgramadas t rp_t in
  let pab_antes := pab_antes_recepcion_planif pab_inicio_periodo rp_t in
  let rn_t := requerimiento_neto rb_t stock_seguridad pab_antes in
  let df := df_set df RequerimientosNetos t rn_t in
  rpp_t ← recepcion_planificada politica_lote lote_minimo rn_t;
  let df := df_set df RecepcionPedidosPlanificados t rpp_t in
  let periodo_lanzamiento := (Z.of_nat t - lead_time)%Z in
  let lanz :=
    acumular_lanzamiento (lanzamientos_planificados st) periodo_lanzamiento
      rpp_t in
  pab' ← py_setitem (pab st) t (pab_antes - rb_t + rpp_t);
  pab_t ← py_index pab' t;
  let df := df_set df InventarioProyectadoDisponible t pab_t in
  Ok {| pab := pab'; mrp_df := df; lanzamientos_planificados := lanz |}.

(** [calcular_mrp] returns the table and the series of planned releases. *)
Definition calcular_mrp
    (requerimientos_brutos : list Qc) (inv_inicial stock_seguridad : Qc)
    (recepciones_programadas : list Qc) (lead_time : Z)
    (lote_minimo : Qc) (politica_lote : string)
  : resultado (DataFrame fila_mrp * list Qc) :=
  let num_periodos := length requerimientos_brutos in
  let periodos := periodos_de num_periodos in
  let recepciones_programadas :=
    ajustar_recepciones recepciones_programadas num_periodos in
  let df := df_nuevo num_periodos in
  pab0 ← py_setitem (replicate (num_periodos + 1) 0) 0 inv_inicial;
  let lanz := replicate num_periodos 0 in
  st ← for_each
         (mrp_periodo requerimientos_brutos recepciones_programadas
            stock_seguridad lead_time lote_minimo politica_lote)
         periodos
         {| pab := pab0; mrp_df := df; lanzamientos_planificados := lanz |};
  let df :=
    df_set_fila (mrp_df st) LanzamientoPlanificadoPedidos
      (lanzamientos_planificados st) in
  Ok (df, lanzamientos_planificados st).

(** The scenario of problem 4, component C, on four periods. *)
Definition mrp_escenario : resultado (DataFrame fila_mrp * list Qc) :=
  calcular_mrp (map z2q [800; 1200; 900; 1100]%Z) (z2q 300) (z2q 100)
    (map z2q [500; 0; 0; 250]%Z) 1 (z2q 1) "LFL".

Definition fila_de (r : resultado (DataFrame fila_mrp * list Qc))
    (f : fila_mrp) : list Qc :=
  match r with Ok (df, _) => df f | Raise _ => [] end.

(** * Properties *)

(** ** Builtins *)

Lemma py_max_lub (a b : Qc) : a ≤ py_max a b ∧ b ≤ py_max a b.
Proof.
  unfold py_max. destruct (decide (a < b)) as [Hlt | Hge].
  - split; [by apply Qclt_le_weak | apply Qcle_refl].
  - split; [apply Qcle_refl | by apply Qcnot_lt_le].
Qed.









Lemma py_index_ok (l : list Qc) (i : nat) (x : Qc) :
  l !! i = Some x → py_index l i = Ok x.
Proof. unfold py_index. by intros ->. Qed.

Lemma py_setitem_ok (l : list Qc) (i : nat) (v : Qc) :
  (i < length l)%nat → py_setitem l i v = Ok (<[i := v]> l).
Proof. unfold py_setitem. intros H. by rewrite decide_True. Qed.

(** ** The loop rule

    [I k s] holds of the state after the periods [1..k]; a body that raises
    ends the loop with that exception. *)
Lemma for_each_rule {S : Type} (body : nat → S → resultado S)
    (I : nat → S → Prop) (Post : resultado S → Prop) (m a : nat) (s : S) :
  I a s →
  (∀ k s, (a ≤ k < a + m)%nat → I k s →
     match body (Datatypes.S k) s with
     | Ok s' => I (Datatypes.S k) s'
     | Raise e => Post (Raise e)
     end) →
  (∀ s, I (a + m)%nat s → Post (Ok s)) →
  Post (for_each body (seq (Datatypes.S a) m) s).
Proof.
  revert a s. induction m as [| m IH]; intros a s Ha Hstep Hend; simpl.
  - apply Hend. by rewrite Nat.add_0_r.
  - specialize (Hstep a s ltac:(lia) Ha) as Hnow.
    destruct (body (Datatypes.S a) s) as [s' | e]; simpl; [| done].
    apply IH; [done | |].
    + intros k s0 Hk. apply Hstep. lia.
    + intros s0 Hs0. apply Hend. by replace (a + Datatypes.S m)%nat
        with (Datatypes.S a + m)%nat by lia.
Qed.

(** ** Tables *)

Section DataFrameLemmas.
Context {R : Type} `{EqDecision R}.
Implicit Types (df : DataFrame R) (f g : R).

Lemma df_set_same df f p v : df_set df f p v f = <[pred p := v]> (df f).
Proof. unfold df_set. by rewrite decide_True. Qed.

Lemma df_set_other df f g p v : g ≠ f → df_set df f p v g = df g.
Proof. unfold df_set. intros H. by rewrite decide_False. Qed.

Lemma df_set_length df f g p v :
  length (df_set df f p v g) = length (df g).
Proof.
  unfold df_set. destruct (decide (g = f)); [apply length_insert | done].
Qed.

Lemma df_set_lookup_ne df f g p v (i : nat) :
  i ≠ pred p → df_set df f p v g !! i = df g !! i.
Proof.
  unfold df_set. intros H. destruct (decide (g = f)); [| done].
  by apply list_lookup_insert_ne.
Qed.

Lemma df_set_lookup_eq df f p v :
  (pred p < length (df f))%nat → df_set df f p v f !! pred p = Some v.
Proof. intros H. rewrite df_set_same. by apply list_lookup_insert_eq. Qed.

Lemma df_nuevo_length (n : nat) f : length (df_nuevo (R := R) n f) = n.
Proof. apply length_replicate. Qed.
End DataFrameLemmas.

(** ** Monadic sequencing *)

Lemma bind_ok {A B : Type} (a : A) (k : A → resultado B) :
  (Ok a ≫= k) = k a.
Proof. reflexivity. Qed.

Lemma bind_raise {A B : Type} (e : excepcion) (k : A → resultado B) :
  (Raise e ≫= k) = Raise e.
Proof. reflexivity. Qed.

(** ** Lot sizing *)

Definition error_lote : excepcion :=
  ValueError "Lote Fijo (FOQ) debe ser mayor que 0".

Lemma recepcion_planificada_cases (pol : string) (lot rn : Qc) :
  (∃ rpp, recepcion_planificada pol lot rn = Ok rpp) ∨
  (recepcion_planificada pol lot rn = Raise error_lote ∧
   pol = "FOQ"%string ∧ lot ≤ 0 ∧ 0 < rn).
Proof.
  unfold recepcion_planificada.
  destruct (decide (0 < rn)) as [Hpos | Hnpos]; [| left; eauto].
  destruct (String.eqb pol "LFL") eqn:Hlfl; [left; eauto |].
  destruct (String.eqb pol "FOQ") eqn:Hfoq; [| left; eauto].
  apply String.eqb_eq in Hfoq.
  destruct (decide (lot ≤ 0)) as [Hle | Hgt]; [| left; eauto].
  by right.
Qed.




(** ** The invariant of the loop of [calcular_mrp] *)

Section MRP.
Variables (rb : list Qc) (inv ss : Qc) (rp : list Qc) (L : Z) (lot : Qc)
  (pol : string).

(** Period [i + 1] has been netted: the rows of the table hold, at position
    [i], the values the loop body computes from the balance [pabl !! i] at
    the end of the period before. *)
Definition periodo_ok (pabl : list Qc) (df : DataFrame fila_mrp) (i : nat)
  : Prop :=
  ∃ pab_prev rb_t rp_t rpp_t,
    pabl !! i = Some pab_prev ∧
    rb !! i = Some rb_t ∧
    rp !! i = Some rp_t ∧
    recepcion_planificada pol lot
      (requerimiento_neto rb_t ss
         (pab_antes_recepcion_planif pab_prev rp_t)) = Ok rpp_t ∧
    df RequerimientosBrutos !! i = Some rb_t ∧
    df RecepcionesProgramadas !! i = Some rp_t ∧
    df RequerimientosNetos !! i =
      Some (requerimiento_neto rb_t ss
              (pab_antes_recepcion_planif pab_prev rp_t)) ∧
    df RecepcionPedidosPlanificados !! i = Some rpp_t ∧
    df InventarioProyectadoDisponible !! i =
      Some (pab_antes_recepcion_planif pab_prev rp_t - rb_t + rpp_t) ∧
    pabl !! S i =
      Some (pab_antes_recepcion_planif pab_prev rp_t - rb_t + rpp_t).

(** What the release series holds at position [r] (release period [r + 1])
    once the periods [1..k] are done: the planned receipt of period
    [r + 1 + L] if that period is among them, nothing otherwise. *)
Definition liberado (rpp_row : list Qc) (k r : nat) : Qc :=
  let t := (Z.of_nat r + 1 + L)%Z in
  if decide (1 ≤ t ≤ Z.of_nat k)%Z
  then default 0 (rpp_row !! Z.to_nat (t - 1))
  else 0.

Record inv_mrp (k : nat) (st : estado_mrp) : Prop := {
  im_len_pab : length (pab st) = S (length rb);
  im_len_df : ∀ f, length (mrp_df st f) = length rb;
  im_len_lanz : length (lanzamientos_planificados st) = length rb;
  im_pab0 : pab st !! 0%nat = Some inv;
  im_periodo : ∀ i, (i < k)%nat → periodo_ok (pab st) (mrp_df st) i;
  im_lanz : ∀ r, (r < length rb)%nat →
    lanzamientos_planificados st !! r =
    Some (liberado (mrp_df st RecepcionPedidosPlanificados) k r)
}.

Hypothesis Hrp : length rp = length rb.

Lemma inv_mrp_inicial :
  inv_mrp 0
    {| pab := <[0%nat := inv]> (replicate (length rb + 1) 0);
       mrp_df := df_nuevo (length rb);
       lanzamientos_planificados := replicate (length rb) 0 |}.
Proof.
  split; simpl.
  - rewrite length_insert, length_replicate. lia.
  - intros f. apply length_replicate.
  - apply length_replicate.
  - apply list_lookup_insert_eq. rewrite length_replicate. lia.
  - intros i Hi. lia.
  - intros r Hr. rewrite lookup_replicate_2 by done.
    unfold liberado. rewrite decide_False by lia. done.
Qed.

Lemma liberado_paso (row : list Qc) (k r : nat) (v : Qc) :
  (Z.of_nat r + 1 + L ≠ Z.of_nat (S k))%Z →
  liberado (<[k := v]> row) (S k) r = liberado row k r.
Proof.
  intros Hne. unfold liberado. simpl.
  destruct (decide (1 ≤ Z.of_nat r + 1 + L ≤ Z.of_nat k)%Z) as [Hin | Hout].
  - rewrite decide_True by lia.
    rewrite list_lookup_insert_ne by lia. done.
  - rewrite decide_False by lia. done.
Qed.

Lemma liberado_nuevo (row : list Qc) (k r : nat) (v : Qc) :
  (Z.of_nat r + 1 + L = Z.of_nat (S k))%Z → (k < length row)%nat →
  liberado row k r = 0 ∧ liberado (<[k := v]> row) (S k) r = v.
Proof.
  intros Heq Hk. unfold liberado. simpl. split.
  - rewrite decide_False by lia. done.
  - rewrite decide_True by lia.
    replace (Z.to_nat (Z.of_nat r + 1 + L - 1)) with k by lia.
    by rewrite list_lookup_insert_eq.
Qed.

Lemma mrp_periodo_inv (k : nat) (st : estado_mrp) :
  (k < length rb)%nat → inv_mrp k st →
  match mrp_periodo rb rp ss L lot pol (S k) st with
  | Ok st' => inv_mrp (S k) st'
  | Raise e => e = error_lote ∧ pol = "FOQ"%string ∧ lot ≤ 0
  end.
Proof.
  intros Hk [Hlp Hld Hll Hp0 Hper Hlanz].
  destruct (lookup_lt_is_Some_2 (pab st) k ltac:(lia)) as [pab_prev Hpab].
  destruct (lookup_lt_is_Some_2 rb k ltac:(lia)) as [rb_t Hrb].
  destruct (lookup_lt_is_Some_2 rp k ltac:(lia)) as [rp_t Hrpt].
  unfold mrp_periodo.
  replace (S k - 1)%nat with k by lia.
  rewrite (py_index_ok _ _ _ Hpab), bind_ok.
  rewrite (py_index_ok _ _ _ Hrb), bind_ok.
  rewrite (py_index_ok _ _ _ Hrpt), bind_ok.
  set (pa := pab_antes_recepcion_planif pab_prev rp_t).
  set (rn := requerimiento_neto rb_t ss pa).
  destruct (recepcion_planificada_cases pol lot rn)
    as [[rpp Hrpp] | (Hraise & Hpol & Hlot & _)].
  2:{ rewrite Hraise, bind_raise. done. }
  rewrite Hrpp, bind_ok.
  rewrite py_setitem_ok by lia. rewrite bind_ok.
  rewrite (py_index_ok _ (S k) (pa - rb_t + rpp)), bind_ok
    by (apply list_lookup_insert_eq; lia).
  set (v := pa - rb_t + rpp).
  set (df' := df_set _ InventarioProyectadoDisponible _ _).
  assert (Hrow : ∀ f, df' f =
    match f with
    | RequerimientosBrutos => <[k := rb_t]> (mrp_df st f)
    | RecepcionesProgramadas => <[k := rp_t]> (mrp_df st f)
    | InventarioProyectadoDisponible => <[k := v]> (mrp_df st f)
    | RequerimientosNetos => <[k := rn]> (mrp_df st f)
    | RecepcionPedidosPlanificados => <[k := rpp]> (mrp_df st f)
    | LanzamientoPlanificadoPedidos => mrp_df st f
    end) by (intros []; reflexivity).
  split; simpl.
  - rewrite length_insert. done.
  - intros f. rewrite Hrow. destruct f; rewrite ?length_insert; apply Hld.
  - unfold acumular_lanzamiento. repeat case_decide; rewrite ?length_alter; done.
  - rewrite list_lookup_insert_ne by lia. done.
  - intros i Hi. destruct (decide (i = k)) as [-> | Hne].
    + exists pab_prev, rb_t, rp_t, rpp. fold pa rn v.
      rewrite !Hrow.
      rewrite list_lookup_insert_ne by lia.
      rewrite !list_lookup_insert_eq by (rewrite ?Hld; lia).
      done.
    + destruct (Hper i ltac:(lia))
        as (p0 & b0 & r0 & q0 & H1 & H2 & H3 & H4 & H5 & H6 & H7 & H8 & H9 & H10).
      exists p0, b0, r0, q0.
      rewrite !Hrow.
      rewrite !list_lookup_insert_ne by lia.
      done.
  - intros r Hr. rewrite Hrow.
    unfold acumular_lanzamiento.
    destruct (decide (Z.of_nat r + 1 + L = Z.of_nat (S k))%Z) as [Heq | Hne].
    + destruct (liberado_nuevo (mrp_df st RecepcionPedidosPlanificados)
                  k r rpp Heq ltac:(rewrite Hld; lia)) as [Hold Hnew].
      rewrite Hnew.
      rewrite decide_True by lia. rewrite decide_True by lia.
      replace (Z.to_nat (Z.of_nat (S k) - L) - 1)%nat with r by lia.
      rewrite list_lookup_alter, decide_True by done.
      rewrite (Hlanz r Hr), Hold. simpl. f_equal. ring.
    + rewrite liberado_paso by done.
      rewrite <- (Hlanz r Hr).
      repeat case_decide; try done.
      apply list_lookup_alter_ne. lia.
Qed.
End MRP.

Lemma ajustar_recepciones_length (rp : list Qc) (n : nat) :
  length (ajustar_recepciones rp n) = n.
Proof.
  unfold ajustar_recepciones. case_decide as H.
  - rewrite length_take, length_app, length_replicate. lia.
  - done.
Qed.

(** The table and the release series [calcular_mrp] returns, for the
    scheduled receipts [rp] it used (already of the length of [rb]). *)
Record mrp_correcto (rb : list Qc) (inv ss : Qc) (rp : list Qc) (L : Z)
    (lot : Qc) (pol : string) (df : DataFrame fila_mrp) (lanz : list Qc)
  : Prop := {
  mc_len_df : ∀ f, length (df f) = length rb;
  mc_len_lanz : length lanz = length rb;
  mc_fila_lanz : df LanzamientoPlanificadoPedidos = lanz;
  mc_periodo : ∀ i, (i < length rb)%nat →
    periodo_ok rb ss rp lot pol (inv :: df InventarioProyectadoDisponible) df i;
  mc_lanz : ∀ r, (r < length rb)%nat →
    lanz !! r = Some (liberado L (df RecepcionPedidosPlanificados) (length rb) r)
}.

Lemma mrp_bucle (rb : list Qc) (inv ss : Qc) (rp : list Qc) (L : Z)
    (lot : Qc) (pol : string) :
  length rp = length rb →
  match
    for_each (mrp_periodo rb rp ss L lot pol) (periodos_de (length rb))
      {| pab := <[0%nat := inv]> (replicate (length rb + 1) 0);
         mrp_df := df_nuevo (length rb);
         lanzamientos_planificados := replicate (length rb) 0 |}
  with
  | Ok st => inv_mrp rb inv ss rp L lot pol (length rb) st
  | Raise e => e = error_lote ∧ pol = "FOQ"%string ∧ lot ≤ 0
  end.
Proof.
  intros Hrp. unfold periodos_de.
  apply (for_each_rule _ (inv_mrp rb inv ss rp L lot pol)
           (fun r => match r with
                     | Ok st => inv_mrp rb inv ss rp L lot pol (length rb) st
                     | Raise e => e = error_lote ∧ pol = "FOQ"%string ∧ lot ≤ 0
                     end)).
  - by apply inv_mrp_inicial.
  - intros k s Hk Hinv. apply mrp_periodo_inv; [done | lia | done].
  - intros s Hs. exact Hs.
Qed.

Lemma calcular_mrp_spec (rb : list Qc) (inv ss : Qc) (rp : list Qc) (L : Z)
    (lot : Qc) (pol : string) :
  match calcular_mrp rb inv ss rp L lot pol with
  | Ok (df, lanz) =>
      mrp_correcto rb inv ss (ajustar_recepciones rp (length rb)) L lot pol
        df lanz
  | Raise e => e = error_lote ∧ pol = "FOQ"%string ∧ lot ≤ 0
  end.
Proof.
  unfold calcular_mrp.
  rewrite py_setitem_ok by (rewrite length_replicate; lia).
  rewrite bind_ok.
  pose proof (mrp_bucle rb inv ss (ajustar_recepciones rp (length rb)) L lot
                pol (ajustar_recepciones_length _ _)) as Hloop.
  destruct (for_each _ _ _) as [st | e]; [| by rewrite bind_raise].
  rewrite bind_ok.
  destruct Hloop as [Hlp Hld Hll Hp0 Hper Hlanz].
  assert (Hpab : ∀ i, (i ≤ length rb)%nat →
            pab st !! i = (inv :: mrp_df st InventarioProyectadoDisponible) !! i).
  { intros [| j] Hj; [done |]. simpl.
    destruct (Hper j ltac:(lia))
      as (p0 & b0 & r0 & q0 & _ & _ & _ & _ & _ & _ & _ & _ & H9 & H10).
    by rewrite H9, H10. }
  split.
  - intros f. unfold df_set_fila. case_decide; [done | apply Hld].
  - done.
  - reflexivity.
  - intros i Hi.
    destruct (Hper i Hi)
      as (p0 & b0 & r0 & q0 & H1 & H2 & H3 & H4 & H5 & H6 & H7 & H8 & H9 & H10).
    exists p0, b0, r0, q0.
    rewrite <- !Hpab by lia. done.
  - intros r Hr. apply Hlanz. done.
Qed.

Lemma calcular_mrp_ok_correcto (rb : list Qc) (inv ss : Qc) (rp : list Qc)
    (L : Z) (lot : Qc) (pol : string) (df : DataFrame fila_mrp)
    (lanz : list Qc) :
  calcular_mrp rb inv ss rp L lot pol = Ok (df, lanz) →
  mrp_correcto rb inv ss (ajustar_recepciones rp (length rb)) L lot pol df lanz.
Proof.
  intros H. pose proof (calcular_mrp_spec rb inv ss rp L lot pol) as Hs.
  by rewrite H in Hs.
Qed.

(** With a lot-for-lot policy, or a positive fixed lot, every period is
    planned and the call returns. *)
Lemma calcular_mrp_total (rb : list Qc) (inv ss : Qc) (rp : list Qc)
    (L : Z) (lot : Qc) (pol : string) :
  pol ≠ "FOQ"%string ∨ 0 < lot → es_ok (calcular_mrp rb inv ss rp L lot pol).
Proof.
  intros Hpol. pose proof (calcular_mrp_spec rb inv ss rp L lot pol) as Hs.
  destruct (calcular_mrp rb inv ss rp L lot pol) as [[df lanz] | e]; [done |].
  destruct Hs as (_ & Hfoq & Hlot). destruct Hpol as [Hne | Hpos]; [done |].
  by apply Qcle_not_lt in Hlot.
Qed.


(** ** The netting recurrence *)

(** [PAB[t]]: the initial inventory for [t = 0] (line 205), the row
    'Inventario Proyectado Disponible' for a period [t >= 1]. *)
Definition PAB (inv_inicial : Qc) (df : DataFrame fila_mrp) (t : nat)
  : option Qc :=
  match t with
  | O => Some inv_inicial
  | S _ => df_loc df InventarioProyectadoDisponible t
  end.





(** ** The MRP scenario *)

Definition serie_de (r : resultado (DataFrame fila_mrp * list Qc)) : list Qc :=
  match r with Ok (_, lanz) => lanz | Raise _ => [] end.

(** C2. On gross requirements [800,1200,900,1100], initial inventory 300,
    safety stock 100, scheduled receipts [500,0,0,250], lead time 1 and
    lot-for-lot with minimum 1, [calcular_mrp] returns a table with, in
    period 1, pab_before = 800, net requirement 100, planned receipt 100,
    release period 0 (below 1, so nothing is accumulated) and PAB[1] = 100;
    in period 2, pab_before = 100, net requirement 1200, planned receipt
    1200, release period 1 so that planned_order_release[1] = 1200, and
    PAB[2] = 100. *)
Theorem mrp_scenario_periods :
  es_ok mrp_escenario ∧
  let df := fila_de mrp_escenario in
  (* period 1 *)
  pab_antes_recepcion_planif (z2q 300) (z2q 500) = z2q 800 ∧
  requerimiento_neto (z2q 800) (z2q 100) (z2q 800) = z2q 100 ∧
  df_loc df RequerimientosNetos 1 = Some (z2q 100) ∧
  df_loc df RecepcionPedidosPlanificados 1 = Some (z2q 100) ∧
  (1 - 1 = 0)%Z ∧
  acumular_lanzamiento (replicate 4 0) (1 - 1) (z2q 100) = replicate 4 0 ∧
  PAB (z2q 300) df 1 = Some (z2q 100) ∧
  (* period 2 *)
  pab_antes_recepcion_planif (z2q 100) (z2q 0) = z2q 100 ∧
  requerimiento_neto (z2q 1200) (z2q 100) (z2q 100) = z2q 1200 ∧
  df_loc df RequerimientosNetos 2 = Some (z2q 1200) ∧
  df_loc df RecepcionPedidosPlanificados 2 = Some (z2q 1200) ∧
  (2 - 1 = 1)%Z ∧
  df_loc df LanzamientoPlanificadoPedidos 1 = Some (z2q 1200) ∧
  serie_de mrp_escenario !! 0%nat = Some (z2q 1200) ∧
  PAB (z2q 300) df 2 = Some (z2q 100) ∧
  (* the whole table *)
  df RequerimientosBrutos = map z2q [800; 1200; 900; 1100]%Z ∧
  df RecepcionesProgramadas = map z2q [500; 0; 0; 250]%Z ∧
  df InventarioProyectadoDisponible = map z2q [100; 100; 100; 100]%Z ∧
  df RequerimientosNetos = map z2q [100; 1200; 900; 850]%Z ∧
  df RecepcionPedidosPlanificados = map z2q [100; 1200; 900; 850]%Z ∧
  df LanzamientoPlanificadoPedidos = map z2q [1200; 900; 850; 0]%Z ∧
  serie_de mrp_escenario = map z2q [1200; 900; 850; 0]%Z.
Proof.
  split; [by vm_compute |].
  cbv zeta. split_and!; by vm_compute.
Qed.

(** ** Planned releases *)






(** ** Conservation across the lead time *)








(** ** Lot alignment *)





Example foq_escenario_filas :
  let r := calcular_mrp (map z2q [0; 0; 500]%Z) (z2q 80) (z2q 10) [] 2
             (z2q 400) "FOQ" in
  fila_de r RequerimientosNetos = map z2q [0; 0; 430]%Z ∧
  fila_de r RecepcionPedidosPlanificados = map z2q [0; 0; 800]%Z ∧
  serie_de r = map z2q [800; 0; 0]%Z.
Proof. cbv zeta. split_and!; by vm_compute. Qed.

(** ** Scheduled receipts of another length *)

(** The scheduled receipts zero-padded or truncated to exactly [n] periods:
    the first [n] of them, followed by a zero for every missing period. *)
Definition rellenar_o_truncar (n : nat) (recepciones : list Qc) : list Qc :=
  take n recepciones ++ replicate (n - length recepciones) 0.


Lemma ajustar_recepciones_rellenar (l : list Qc) (n : nat) :
  ajustar_recepciones l n = rellenar_o_truncar n l.
Proof.
  unfold ajustar_recepciones, rellenar_o_truncar. case_decide as Hlen.
  - destruct (decide (n ≤ length l)%nat) as [Hle | Hgt].
    + rewrite take_app_le by done.
      replace (n - length l)%nat with 0%nat by lia.
      by rewrite app_nil_r.
    + rewrite take_app_ge by lia. rewrite (take_ge l) by lia.
      f_equal. rewrite take_replicate. f_equal. lia.
  - rewrite take_ge by lia.
    replace (n - length l)%nat with 0%nat by lia.
    by rewrite app_nil_r.
Qed.




Example rellenar_o_truncar_ejemplos :
  rellenar_o_truncar 4 [z2q 500] = map z2q [500; 0; 0; 0]%Z ∧
  rellenar_o_truncar 4 (map z2q [500; 0; 0; 250; 70; 70]%Z)
  = map z2q [500; 0; 0; 250]%Z ∧
  fila_de (calcular_mrp (map z2q [800; 1200; 900; 1100]%Z) (z2q 300)
             (z2q 100) (map z2q [500; 0; 0; 250; 70; 70]%Z) 1 (z2q 1) "LFL")
    RecepcionesProgramadas = map z2q [500; 0; 0; 250]%Z.
Proof. split_and!; by vm_compute. Qed.

(** ** Safety stock per period *)



Example safety_stock_problem_1 :
  calcular_stock_seguridad_porcentaje (map z2q [300; 500; 900; 1500]%Z)
    (Q2Qc (1 # 10)) "periodo"
  = Ok (SSPorPeriodo (map z2q [30; 50; 90; 150]%Z)).
Proof. by vm_compute. Qed.

(** ** Errors of the chase planner *)









Example chase_empty_horizon :
  es_ok (calcular_mps_perseguidor_ss_variable [] 0 [] 1) ∧
  es_value_error
    (calcular_mps_perseguidor_ss_variable [z2q 300] (z2q 400) [z2q 30] 1) ∧
  es_value_error
    (calcular_mps_perseguidor_ss_variable [z2q 300] (z2q 400) []
       (Q2Qc (15 # 100))).
Proof. split_and!; by vm_compute. Qed.

(** ** The fixed lot of size <= 0 *)



Section LoteNoPositivo.
Variables (rb : list Qc) (inv ss : Qc) (rp : list Qc) (L : Z) (lot : Qc).
Hypothesis Hrp : length rp = length rb.
Hypothesis Hlot : lot ≤ 0.




End LoteNoPositivo.





(** The exception comes from inside the loop: with a requirement in period 2
    only, period 1 is netted and written before period 2 raises. *)
Example foq_zero_lot_raises_in_period_2 :
  let paso := mrp_periodo (map z2q [0; 500]%Z) (map z2q [0; 0]%Z) (z2q 10) 2
                0 "FOQ" in
  let st0 := {| pab := [z2q 80; 0; 0]; mrp_df := df_nuevo 2;
                lanzamientos_planificados := [0; 0] |} in
  es_ok (paso 1%nat st0) ∧
  (paso 1%nat st0 ≫= paso 2%nat) = Raise error_lote.
Proof. cbv zeta. split; by vm_compute. Qed.

(** ** The scenario of the level strategy *)

(** Product B of problem 1. *)
Definition nivelado_escenario : resultado (DataFrame fila_nivelado) :=
  calcular_mps_nivelado (map z2q [800; 1000; 700; 700]%Z) (z2q 0) (z2q 50)
    (Q2Qc (5 # 100)) 4.

Definition fila_nivelado_de (r : resultado (DataFrame fila_nivelado))
    (f : fila_nivelado) : list Qc :=
  match r with Ok df => df f | Raise _ => [] end.

(** C3. On demand [800,1000,700,700], initial inventory 0, terminal safety
    stock 50, scrap rate 0.05 and 4 periods, [calcular_mps_nivelado] works
    with a total net requirement of 3250, a net requirement per period of
    812.5 (the fraction 1625/2, not rounded), and a gross production of
    ceil(812.5 / 0.95) = 856, written in each of the 4 periods. *)
Theorem level_scenario :
  let demanda := map z2q [800; 1000; 700; 700]%Z in
  py_sum demanda = z2q 3200 ∧
  requerimiento_neto_total demanda (z2q 0) (z2q 50) = z2q 3250 ∧
  produccion_necesaria_por_periodo demanda (z2q 0) (z2q 50) 4
  = Q2Qc (1625 # 2) ∧
  Q2Qc (1625 # 2) / (1 - Q2Qc (5 # 100)) = Q2Qc (16250 # 19) ∧
  produccion_bruta_por_periodo demanda (z2q 0) (z2q 50) (Q2Qc (5 # 100)) 4
  = z2q 856 ∧
  es_ok nivelado_escenario ∧
  fila_nivelado_de nivelado_escenario NProduccionBrutaRequerida
  = map z2q [856; 856; 856; 856]%Z.
Proof.
  cbv zeta.
  split_and!; first [by vm_compute | apply Qc_is_canon; by vm_compute].
Qed.

Example level_scenario_inventory :
  fila_nivelado_de nivelado_escenario NInventarioInicial
  = map z2q [0; 56; -88; 68]%Z ∧
  fila_nivelado_de nivelado_escenario NInventarioDisponible
  = map z2q [856; 912; 768; 924]%Z ∧
  fila_nivelado_de nivelado_escenario NDemanda
  = map z2q [800; 1000; 700; 700]%Z ∧
  fila_nivelado_de nivelado_escenario NInventarioFinal
  = map z2q [56; -88; 68; 224]%Z.
Proof. split_and!; by vm_compute. Qed.

(** * Further properties of the planners *)

(** ** Order and rounding *)









(** ** MRP: what every returned table guarantees *)




(** ** MRP: the lead time, of either sign *)



Example negative_lead_time_rows :
  let r := calcular_mrp (map z2q [800; 1200; 900; 1100]%Z) (z2q 300) (z2q 100)
             (map z2q [500; 0; 0; 250]%Z) (-1) (z2q 1) "LFL" in
  fila_de r RecepcionPedidosPlanificados = map z2q [100; 1200; 900; 850]%Z ∧
  serie_de r = map z2q [0; 100; 1200; 900]%Z.
Proof. cbv zeta. split; by vm_compute. Qed.

(** ** MRP: lot policies *)

Lemma for_each_ext {S : Type} (f g : nat → S → resultado S) (xs : list nat)
    (s : S) :
  (∀ x s, f x s = g x s) → for_each f xs s = for_each g xs s.
Proof.
  intros Hfg. revert s. induction xs as [| x xs IH]; intros s; simpl; [done |].
  rewrite Hfg. destruct (g x s) as [s' | e]; simpl; [apply IH | done].
Qed.

Lemma recepcion_planificada_otra (pol : string) (lot rn : Qc) :
  pol ≠ "LFL"%string → pol ≠ "FOQ"%string →
  recepcion_planificada pol lot rn = recepcion_planificada "LFL" lot rn.
Proof.
  intros H1 H2. unfold recepcion_planificada.
  apply String.eqb_neq in H1, H2. by rewrite H1, H2.
Qed.

Lemma mrp_periodo_otra (rb rp : list Qc) (ss : Qc) (L : Z) (lot : Qc)
    (pol : string) (t : nat) (st : estado_mrp) :
  pol ≠ "LFL"%string → pol ≠ "FOQ"%string →
  mrp_periodo rb rp ss L lot pol t st = mrp_periodo rb rp ss L lot "LFL" t st.
Proof.
  intros H1 H2. unfold mrp_periodo.
  destruct (py_index (pab st) (t - 1)) as [p |]; [| done].
  destruct (py_index rb (t - 1)) as [b |]; [| done].
  destruct (py_index rp (t - 1)) as [r |]; [| done].
  rewrite !bind_ok. by rewrite (recepcion_planificada_otra pol).
Qed.

(** X3. A policy name that is neither 'LFL' nor 'FOQ' is planned lot for
    lot: the call gives the result of the same call with 'LFL', and never
    raises. *)
Theorem unknown_policy_is_lot_for_lot (rb : list Qc) (inv ss : Qc)
    (rp : list Qc) (L : Z) (lot : Qc) (pol : string) :
  pol ≠ "LFL"%string → pol ≠ "FOQ"%string →
  calcular_mrp rb inv ss rp L lot pol = calcular_mrp rb inv ss rp L lot "LFL" ∧
  es_ok (calcular_mrp rb inv ss rp L lot pol).
Proof.
  intros H1 H2. split; [| apply calcular_mrp_total; by left].
  unfold calcular_mrp.
  rewrite py_setitem_ok by (rewrite length_replicate; lia).
  rewrite !bind_ok.
  rewrite (for_each_ext
             (mrp_periodo rb (ajustar_recepciones rp (length rb)) ss L lot pol)
             (mrp_periodo rb (ajustar_recepciones rp (length rb)) ss L lot
                "LFL")); [done |].
  intros t st. by apply mrp_periodo_otra.
Qed.

Lemma unknown_policy_is_lot_for_lot_witness :
  let rb := map z2q [800; 1200; 900; 1100]%Z in
  let rp := map z2q [500; 0; 0; 250]%Z in
  calcular_mrp rb (z2q 300) (z2q 100) rp 1 (z2q 1) "POQ"
  = calcular_mrp rb (z2q 300) (z2q 100) rp 1 (z2q 1) "LFL".
Proof.
  intros rb rp.
  exact (proj1 (unknown_policy_is_lot_for_lot rb (z2q 300) (z2q 100) rp 1
                  (z2q 1) "POQ" ltac:(discriminate) ltac:(discriminate))).
Defined.

(** X4. Lot for lot with a minimum: the call always returns, and in each
    period the planned receipt is 0 when the net requirement is 0 and the
    larger of the net requirement and [lote_minimo] otherwise; it equals the
    net requirement as soon as that reaches the minimum. *)
Theorem lfl_respects_minimum (rb : list Qc) (inv ss : Qc) (rp : list Qc)
    (L : Z) (lot : Qc) :
  ∃ df lanz,
    calcular_mrp rb inv ss rp L lot "LFL" = Ok (df, lanz) ∧
    ∀ t, (1 ≤ t ≤ length rb)%nat →
      ∃ net receipt,
        df_loc df RequerimientosNetos t = Some net ∧
        df_loc df RecepcionPedidosPlanificados t = Some receipt ∧
        (net = 0 → receipt = 0) ∧
        (0 < net → receipt = py_max net lot ∧ lot ≤ receipt ∧ net ≤ receipt) ∧
        (0 < net → lot ≤ net → receipt = net).
Proof.
  pose proof (calcular_mrp_total rb inv ss rp L lot "LFL" ltac:(by left))
    as Htot.
  destruct (calcular_mrp rb inv ss rp L lot "LFL") as [[df lanz] | e] eqn:Hok;
    [| done].
  exists df, lanz. split; [done |].
  intros [| i] Ht; [lia |].
  apply calcular_mrp_ok_correcto in Hok as [_ _ _ Hper _].
  destruct (Hper i ltac:(lia))
    as (p0 & b0 & r0 & q0 & H1 & H2 & H3 & H4 & H5 & H6 & H7 & H8 & H9 & H10).
  set (net := requerimiento_neto b0 ss (pab_antes_recepcion_planif p0 r0)) in *.
  exists net, q0. unfold df_loc.
  unfold recepcion_planificada in H4. simpl in H4.
  split_and!; [done | done | | |].
  - intros Hz. rewrite decide_False in H4; [by inversion H4 |].
    rewrite Hz. apply (Qcle_not_lt 0 0), Qcle_refl.
  - intros Hpos. rewrite decide_True in H4 by done.
    inversion H4. split_and!; [done | apply py_max_lub | apply py_max_lub].
  - intros Hpos Hle. rewrite decide_True in H4 by done.
    inversion H4. unfold py_max. rewrite decide_False; [done |].
    by apply Qcle_not_lt.
Qed.

(** ** MRP: the balance over the horizon *)



(** ** Safety stock: the other modes and the errors *)






Example safety_stock_problem_1_c :
  calcular_stock_seguridad_porcentaje (map z2q [1500; 750; 800; 900]%Z)
    (Q2Qc (15 # 100)) "final" = Ok (SSEscalar (z2q 135)) ∧
  calcular_stock_seguridad_porcentaje (map z2q [1500; 750; 800; 900]%Z)
    (Q2Qc (15 # 100)) "promedio" = Ok (SSEscalar (z2q 149)).
Proof. split; by vm_compute. Qed.






(** ** The invariant of the loop of [calcular_mps_nivelado] *)

Section Nivelado.
Variables (demanda : list Qc) (inv produccion_bruta : Qc) (n : nat).




End Nivelado.














(** ** The invariant of the loop of the chase planner *)

(** Lines 128-135: the gross production of a period. *)
Definition produccion_bruta_requerida (demanda_actual ss_actual
    inv_inicial_periodo scrap_rate : Qc) : Qc :=
  py_ceil (py_max 0 (demanda_actual + ss_actual - inv_inicial_periodo)
           / (1 - scrap_rate)).

Section Perseguidor.
Variables (demanda : list Qc) (inv : Qc) (ss : list Qc) (scrap_rate : Qc).
Hypothesis Hlen : length ss = length demanda.
Hypothesis Hscrap : ¬ 1 ≤ scrap_rate.




End Perseguidor.






Definition perseguidor_problema_1 : resultado (DataFrame fila_perseguidor) :=
  calcular_mps_perseguidor_ss_variable (map z2q [300; 500; 900; 1500]%Z)
    (z2q 400) (map z2q [30; 50; 90; 150]%Z) (Q2Qc (15 # 100)).

Definition fila_perseguidor_de (r : resultado (DataFrame fila_perseguidor))
    (f : fila_perseguidor) : list Qc :=
  match r with Ok df => df f | Raise _ => [] end.

Example perseguidor_problema_1_filas :
  fila_perseguidor_de perseguidor_problema_1 PInventarioInicial
  = map z2q [400; 100; 130; 242]%Z ∧
  fila_perseguidor_de perseguidor_problema_1 PProduccionBrutaRequerida
  = map z2q [0; 530; 1012; 1657]%Z ∧
  fila_perseguidor_de perseguidor_problema_1 PInventarioFinal
  = map z2q [100; 130; 242; 399]%Z.
Proof. split_and!; by vm_compute. Qed.






(** ** Safety stock per period feeding the chase planner *)




Example problema_2_producto_b :
  let ss := map z2q [800; 750; 1000]%Z in
  let r := calcular_mps_perseguidor_ss_variable
             (map z2q [8000; 7500; 10000]%Z) (z2q 500) ss (Q2Qc (5 # 100)) in
  calcular_stock_seguridad_porcentaje (map z2q [8000; 7500; 10000]%Z)
    (Q2Qc (1 # 10)) "periodo" = Ok (SSPorPeriodo ss) ∧
  fila_perseguidor_de r PProduccionBrutaRequerida
  = map z2q [8737; 7383; 10400]%Z ∧
  fila_perseguidor_de r PInventarioFinal = map z2q [1237; 1120; 1520]%Z.
Proof. cbv zeta. split_and!; by vm_compute. Qed.

(** ** MRP: the shape of the result *)

(** X16. A returned MRP table has one column per gross requirement in every
    row, and so has the release series; the row of gross requirements is the
    input, the row of scheduled receipts is the input once padded or
    truncated, and the row of planned releases is the returned series. *)
Theorem mrp_table_shape (rb : list Qc) (inv ss : Qc) (rp : list Qc) (L : Z)
    (lot : Qc) (pol : string) (df : DataFrame fila_mrp) (lanz : list Qc) :
  calcular_mrp rb inv ss rp L lot pol = Ok (df, lanz) →
  (∀ f, length (df f) = length rb) ∧
  length lanz = length rb ∧
  df RequerimientosBrutos = rb ∧
  df RecepcionesProgramadas = rellenar_o_truncar (length rb) rp ∧
  df LanzamientoPlanificadoPedidos = lanz.
Proof.
  intros Hok.
  apply calcular_mrp_ok_correcto in Hok as [Hld Hll Hfila Hper _].
  rewrite <- ajustar_recepciones_rellenar.
  split_and!; try done.
  - apply list_eq. intros i.
    destruct (decide (i < length rb)%nat) as [Hi | Hi].
    + destruct (Hper i Hi) as (p0 & b0 & r0 & q0 & _ & H2 & _ & _ & H5 & _).
      by rewrite H2, H5.
    + rewrite !(proj2 (lookup_ge_None _ _)); [done | lia |].
      rewrite Hld. lia.
  - apply list_eq. intros i.
    destruct (decide (i < length rb)%nat) as [Hi | Hi].
    + destruct (Hper i Hi)
        as (p0 & b0 & r0 & q0 & _ & _ & H3 & _ & _ & H6 & _).
      by rewrite H3, H6.
    + rewrite !(proj2 (lookup_ge_None _ _)); [done | |].
      * rewrite ajustar_recepciones_length. lia.
      * rewrite Hld. lia.
Qed.

Lemma mrp_table_shape_witness :
  ∃ df lanz, mrp_escenario = Ok (df, lanz) ∧
    df RequerimientosBrutos = map z2q [800; 1200; 900; 1100]%Z ∧
    length lanz = 4%nat.
Proof.
  pose proof (calcular_mrp_total (map z2q [800; 1200; 900; 1100]%Z) (z2q 300)
           (z2q 100) (map z2q [500; 0; 0; 250]%Z) 1 (z2q 1) "LFL"
           ltac:(by left)) as Hok.
  pose proof (fun df lanz =>
    mrp_table_shape (map z2q [800; 1200; 900; 1100]%Z)
      (z2q 300) (z2q 100) (map z2q [500; 0; 0; 250]%Z) 1 (z2q 1) "LFL"
      df lanz) as Hx.
  fold mrp_escenario in Hok, Hx.
  destruct mrp_escenario as [[df lanz] | e]; [| done].
  exists df, lanz. split; [reflexivity |].
  destruct (Hx df lanz eq_refl) as (_ & Hlen & Hrb & _).
  split; [exact Hrb | exact Hlen].
Defined.
